(** * ZEEL content EV simulator: the financial model of [app.py]

    The script [app.py] reads four slider values, derives [avg_rate], halts
    when it is negative, and otherwise computes the legacy and proposed
    portfolio figures, the waterfall (value bridge) steps and the capital
    split.  This development embeds that arithmetic once, over an abstract
    number interface, and instantiates it twice:

    - [B64]: IEEE 754 binary64 with round-to-nearest-even, the arithmetic
      of Python's [float] (Rocq's primitive floats, specified by the
      Standard Library's [SpecFloat] through [FloatAxioms]);
    - [Exact]: the rationals [Q], the real-number reading of the formulas.

    Python's [int] operands of the script ([N], the [c_tv] slider, the
    factor [-1]) are small integers; they are exactly representable in
    binary64, and so is the only int-by-int product [N * c_tv], hence the
    model carries every quantity in the number type and injects integers
    with [of_int].

    Equations between figures are proved in [Exact] for every valid input,
    and in [B64] for every input where they hold bit for bit, else at every
    slider setting, with Python's comparisons or within the tolerance
    [1e-9] of the specification.  Whether a run halts is a matter of
    [B64]. *)

From Stdlib Require Import ZArith QArith Qabs List Bool Lqa.
From Stdlib Require Uint63 Floats.
Import ListNotations.

(** ** The number interface *)

Class Ops (num : Type) : Type := {
  add : num -> num -> num;
  sub : num -> num -> num;
  mul : num -> num -> num;
  div : num -> num -> num;
  opp : num -> num;
  of_int : Z -> num;
  eqb : num -> num -> bool;
  ltb : num -> num -> bool;
  leb : num -> num -> bool;
  abs : num -> num
}.

Declare Scope num_scope.
Delimit Scope num_scope with num.
Infix "+" := add : num_scope.
Infix "-" := sub : num_scope.
Infix "*" := mul : num_scope.
Infix "/" := div : num_scope.

(** A decimal literal [m / 10^k], e.g. [dec 85 2] for [0.85].  In binary64
    the division of two exactly representable integers is correctly
    rounded, which is the value Python gives the literal. *)
Definition dec {num} `{Ops num} (m : Z) (k : nat) : num :=
  (of_int m / of_int (10 ^ Z.of_nat k))%num.

(** Agreement within the specification's floating-point tolerance [1e-9]. *)
Definition close {num} `{Ops num} (x y : num) : bool :=
  leb (abs (x - y)%num) (dec 1 9).

(** ** The model, from [app.py] sections 2, 3 and 5 *)

(** The four sliders of the sidebar: [c_tv] is an integer slider, [c_pilot]
    a float slider (held here in tenths), the two rates are integer percent
    sliders. *)
Record Sliders : Type := mkSliders {
  tv_slider : Z;
  pilot_tenths : Z;
  flop_pct : Z;
  hit_pct : Z
}.

(** The [measure] of a bar of the waterfall chart. *)
Inductive Measure : Type := absolute | relative | total.

Section Model.
Context {num : Type} `{Ops num}.
Local Open Scope num_scope.

Record Inputs : Type := mkInputs {
  c_tv : num;
  c_pilot : num;
  flop_rate : num;
  hit_rate : num
}.

(** The slider values as the script takes them: the two percentages are
    divided by [100.0]. *)
Definition read_sliders (s : Sliders) : Inputs :=
  {| c_tv := of_int (tv_slider s);
     c_pilot := dec (pilot_tenths s) 1;
     flop_rate := of_int (flop_pct s) / dec 1000 1;
     hit_rate := of_int (hit_pct s) / dec 1000 1 |}.

Variable i : Inputs.

Definition avg_rate : num := dec 10 1 - flop_rate i - hit_rate i.

Definition N : num := of_int 10.

Definition rev_flop : num := c_tv i * dec 2 1.
Definition rev_avg : num := c_tv i * dec 11 1.
Definition rev_hit : num := c_tv i * dec 20 1.

Definition leg_cost : num := N * c_tv i.
Definition leg_rev : num :=
  N * ((flop_rate i * rev_flop) + (avg_rate * rev_avg) + (hit_rate i * rev_hit)).
Definition leg_roi : num := leg_rev - leg_cost.

Definition pilot_spend : num := N * c_pilot i.
Definition flops_killed : num := N * flop_rate i.

Definition cost_avg_show : num := c_pilot i + (c_tv i * dec 85 2).
Definition cost_hit_show : num := c_pilot i + (c_tv i * dec 120 2).

Definition prop_cost_avg : num := (N * avg_rate) * cost_avg_show.
Definition prop_cost_hits : num := (N * hit_rate i) * cost_hit_show.
Definition prop_total_cost : num := pilot_spend + prop_cost_avg + prop_cost_hits.

Definition prop_rev : num := (N * avg_rate * rev_avg) + (N * hit_rate i * rev_hit).
Definition prop_roi : num := prop_rev - prop_total_cost.

Definition cash_freed : num := prop_roi - leg_roi.

(** Waterfall steps. *)
Definition savings_on_flops : num := (N * flop_rate i) * c_tv i.
Definition cost_of_piloting : num := of_int (-1) * (N * c_pilot i).
Definition contract_variance : num :=
  (leg_cost - ((N * flop_rate i * c_tv i) + prop_cost_avg + prop_cost_hits + cost_of_piloting))
  * of_int (-1).
Definition lost_salvage_rev : num := of_int (-1) * (N * flop_rate i * rev_flop).

(** The [y] series and the [measure]s handed to the waterfall chart. *)
Definition waterfall_y : list num :=
  [leg_roi; savings_on_flops; cost_of_piloting; lost_salvage_rev; contract_variance; prop_roi].

Definition waterfall_measure : list Measure :=
  [absolute; relative; relative; relative; relative; total].

(** The level each bar reaches: an absolute bar sets the running total, a
    relative bar adds to it, a total bar shows it, whatever its [y]. *)
Fixpoint waterfall_levels (acc : num) (bars : list (Measure * num)) : list num :=
  match bars with
  | [] => []
  | (absolute, y) :: rest => y :: waterfall_levels y rest
  | (relative, y) :: rest => (acc + y) :: waterfall_levels (acc + y) rest
  | (total, _) :: rest => acc :: waterfall_levels acc rest
  end.

(** The four relative steps, and the level of the total bar: the legacy
    ROI plus the steps, accumulated in order. *)
Definition bridge_steps : list num :=
  [savings_on_flops; cost_of_piloting; lost_salvage_rev; contract_variance].

Definition bridge_total : num :=
  last (waterfall_levels (of_int 0) (combine waterfall_measure waterfall_y)) (of_int 0).

(** Capital split. *)
Definition leg_waste : num := (N * flop_rate i) * c_tv i.
Definition leg_productive : num := leg_cost - leg_waste.
Definition prop_waste : num := (N * flop_rate i) * c_pilot i.
Definition prop_productive : num := prop_total_cost - prop_waste.

(** The formulas as the specification words them (section 4.1), for
    comparison with the script's. *)
Definition spec_rev_flop : num := dec 2 1 * c_tv i.
Definition spec_rev_avg : num := dec 11 1 * c_tv i.
Definition spec_rev_hit : num := dec 20 1 * c_tv i.
Definition spec_a : num := of_int 1 - flop_rate i - hit_rate i.

Definition spec_legacy_cost : num := N * c_tv i.
Definition spec_legacy_revenue : num :=
  N * (flop_rate i * spec_rev_flop + spec_a * spec_rev_avg + hit_rate i * spec_rev_hit).

Definition spec_pilot_spend : num := N * c_pilot i.
Definition spec_production_cost : num :=
  (N * spec_a) * (c_pilot i + dec 85 2 * c_tv i)
  + (N * hit_rate i) * (c_pilot i + dec 120 2 * c_tv i).
Definition spec_proposed_cost : num := spec_pilot_spend + spec_production_cost.
Definition spec_proposed_revenue : num :=
  N * spec_a * spec_rev_avg + N * hit_rate i * spec_rev_hit.

Definition spec_saved_tv_production_on_flops : num := N * flop_rate i * c_tv i.
Definition spec_micro_pilot_costs : num := opp (N * c_pilot i).
Definition spec_lost_salvage_revenue : num := opp (N * flop_rate i * spec_rev_flop).
Definition spec_contract_impact : num :=
  prop_roi - leg_roi - spec_saved_tv_production_on_flops
  - spec_micro_pilot_costs - spec_lost_salvage_revenue.

Record Result : Type := mkResult {
  r_avg_rate : num;
  r_leg_cost : num;
  r_leg_rev : num;
  r_leg_roi : num;
  r_pilot_spend : num;
  r_prop_cost_avg : num;
  r_prop_cost_hits : num;
  r_prop_total_cost : num;
  r_prop_rev : num;
  r_prop_roi : num;
  r_cash_freed : num;
  r_waterfall_y : list num;
  r_leg_waste : num;
  r_leg_productive : num;
  r_prop_waste : num;
  r_prop_productive : num
}.

Definition figures : Result := {|
    r_avg_rate := avg_rate;
    r_leg_cost := leg_cost;
    r_leg_rev := leg_rev;
    r_leg_roi := leg_roi;
    r_pilot_spend := pilot_spend;
    r_prop_cost_avg := prop_cost_avg;
    r_prop_cost_hits := prop_cost_hits;
    r_prop_total_cost := prop_total_cost;
    r_prop_rev := prop_rev;
    r_prop_roi := prop_roi;
    r_cash_freed := cash_freed;
    r_waterfall_y := waterfall_y;
    r_leg_waste := leg_waste;
    r_leg_productive := leg_productive;
    r_prop_waste := prop_waste;
    r_prop_productive := prop_productive |}.

(** One run of the script: [st.stop()] when [avg_rate < 0], before any
    figure is computed; otherwise every figure. *)
Definition evaluate : option Result :=
  if ltb avg_rate (of_int 0) then None else Some figures.

End Model.

Arguments Inputs num : clear implicits.
Arguments Result num : clear implicits.

(** ** Binary64 instance *)

Module B64.
Definition t : Type := PrimFloat.float.

(** Python's [float(n)] for the small integers of the script. *)
Definition of_Z (z : Z) : t :=
  match z with
  | Z0 => PrimFloat.zero
  | Zpos _ => PrimFloat.of_uint63 (Uint63.of_Z z)
  | Zneg p => PrimFloat.opp (PrimFloat.of_uint63 (Uint63.of_Z (Zpos p)))
  end.

#[global] Instance ops : Ops t := {|
  add := PrimFloat.add;
  sub := PrimFloat.sub;
  mul := PrimFloat.mul;
  div := PrimFloat.div;
  opp := PrimFloat.opp;
  of_int := of_Z;
  eqb := PrimFloat.eqb;
  ltb := PrimFloat.ltb;
  leb := PrimFloat.leb;
  abs := PrimFloat.abs
|}.
End B64.

(** ** Exact instance *)

Module Exact.
Definition t : Type := Q.

#[global] Instance ops : Ops t := {|
  add := Qplus;
  sub := Qminus;
  mul := Qmult;
  div := Qdiv;
  opp := Qopp;
  of_int := inject_Z;
  eqb := Qeq_bool;
  ltb := fun x y => negb (Qle_bool y x);
  leb := Qle_bool;
  abs := Qabs
|}.
End Exact.

(** ** Inputs *)

(** The slider positions of the sidebar: minimum, step and number of stops. *)
Definition stops (lo step : Z) (n : nat) : list Z :=
  map (fun k => (lo + step * Z.of_nat k)%Z) (seq 0 n).

Definition tv_stops : list Z := stops 20 5 17.
Definition pilot_stops : list Z := stops 10 5 9.
Definition flop_stops : list Z := stops 30 5 11.
Definition hit_stops : list Z := stops 5 5 6.

Definition on_sliders (s : Sliders) : Prop :=
  In (tv_slider s) tv_stops /\ In (pilot_tenths s) pilot_stops /\
  In (flop_pct s) flop_stops /\ In (hit_pct s) hit_stops.

(** A boolean test at every slider setting. *)
Definition forall_sliders (P : Sliders -> bool) : bool :=
  forallb (fun tv => forallb (fun p => forallb (fun f => forallb (fun h =>
    P (mkSliders tv p f h)) hit_stops) flop_stops) pilot_stops) tv_stops.

(** The sidebar defaults. *)
Definition ref_sliders : Sliders := mkSliders 50 20 60 10.

(** Validity of an input in the exact reading (section 4.1, preconditions). *)
Definition valid (i : Inputs Q) : Prop :=
  0 <= flop_rate i /\ flop_rate i <= 1 /\
  0 <= hit_rate i /\ hit_rate i <= 1 /\
  flop_rate i + hit_rate i <= 1 /\
  0 < c_tv i /\ 0 < c_pilot i.

Definition b64 (s : Sliders) : Inputs B64.t := read_sliders s.
Definition exact (s : Sliders) : Inputs Q := read_sliders s.

(** ** Tests run at every slider setting *)

(** The script's proposed cost against the specification's. *)
Definition proposed_cost_check (s : Sliders) : bool :=
  close (prop_total_cost (b64 s)) (spec_proposed_cost (b64 s)).

(** Wasted plus productive capital against the total cost, with [==]. *)
Definition capital_split_check (s : Sliders) : bool :=
  let i := b64 s in
  eqb (leg_waste i + leg_productive i)%num (leg_cost i)
  && eqb (prop_waste i + prop_productive i)%num (prop_total_cost i).

(** Proposed against legacy revenue, and their gap against the salvage
    revenue. *)
Definition revenue_gap_check (s : Sliders) : bool :=
  let i := b64 s in
  leb (prop_rev i) (leg_rev i)
  && close (leg_rev i - prop_rev i)%num (N * flop_rate i * rev_flop i)%num.

(** The same setting at another flop rate, and the legacy revenue and ROI
    at every larger flop rate. *)
Definition with_flop (s : Sliders) (f : Z) : Sliders :=
  mkSliders (tv_slider s) (pilot_tenths s) f (hit_pct s).

Definition legacy_monotone_check (s : Sliders) : bool :=
  forallb (fun f2 =>
    if (flop_pct s <? f2)%Z then
      ltb (leg_rev (b64 (with_flop s f2))) (leg_rev (b64 s))
      && ltb (leg_roi (b64 (with_flop s f2))) (leg_roi (b64 s))
    else true) flop_stops.

(** Whether the run halts, against the percentages. *)
Definition halts (s : Sliders) : bool :=
  match evaluate (b64 s) with None => true | Some _ => false end.

Definition halting_check (s : Sliders) : bool :=
  Bool.eqb (halts s)
    ((100 <? flop_pct s + hit_pct s)%Z
     || ((flop_pct s =? 80)%Z && (hit_pct s =? 20)%Z)).

(** ** The metric cards and the table of the bar chart, from [app.py]
    sections 4 and 5 *)

(** The style class of a card's caption: [metric-delta positive] or
    [metric-delta negative]. *)
Inductive Delta : Type := delta_positive | delta_negative.

Section Display.
Context {num : Type} `{Ops num}.
Local Open Scope num_scope.

Record Card : Type := mkCard {
  card_value : num;
  card_delta : Delta
}.

(** "Legacy Portfolio Net ROI": the caption is negative when the ROI is. *)
Definition legacy_card (i : Inputs num) : Card :=
  {| card_value := leg_roi i;
     card_delta := if ltb (leg_roi i) (of_int 0) then delta_negative else delta_positive |}.

(** "Proposed Portfolio Net ROI" and "Free Cash Flow Generated": the
    caption is positive, whatever the value. *)
Definition proposed_card (i : Inputs num) : Card :=
  {| card_value := prop_roi i; card_delta := delta_positive |}.

Definition cash_card (i : Inputs num) : Card :=
  {| card_value := cash_freed i; card_delta := delta_positive |}.

(** A row of [df_bar]: the two stacked segments of one model's bar. *)
Record BarRow : Type := mkBarRow {
  bar_wasted : num;
  bar_productive : num
}.

Definition df_bar (i : Inputs num) : list BarRow :=
  [ {| bar_wasted := leg_waste i; bar_productive := leg_productive i |};
    {| bar_wasted := prop_waste i; bar_productive := prop_productive i |} ].

(** The same rates at costs [k] times as large. *)
Definition scale_costs (k : num) (i : Inputs num) : Inputs num :=
  {| c_tv := k * c_tv i; c_pilot := k * c_pilot i;
     flop_rate := flop_rate i; hit_rate := hit_rate i |}.

End Display.

Arguments Card num : clear implicits.
Arguments BarRow num : clear implicits.

(** ** The figures of a slider setting in integers *)

(** [200 * cash_freed], [200 * prop_roi], [100 * leg_roi / c_tv] and
    [100 *] the distance of the chart's total bar from the proposed ROI,
    in the units of the sliders. *)
Definition cash_int (s : Sliders) : Z :=
  (tv_slider s * (300 + 13 * flop_pct s - 7 * hit_pct s)
   - pilot_tenths s * (400 - 2 * flop_pct s))%Z.

Definition prop_int (s : Sliders) : Z :=
  ((100 - flop_pct s - hit_pct s) * (5 * tv_slider s - 2 * pilot_tenths s)
   + hit_pct s * (16 * tv_slider s - 2 * pilot_tenths s)
   - 200 * pilot_tenths s)%Z.

Definition leg_int (s : Sliders) : Z :=
  (100 + 9 * hit_pct s - 9 * flop_pct s)%Z.

Definition gap_int (s : Sliders) : Z :=
  ((100 - 2 * flop_pct s) * pilot_tenths s
   + tv_slider s * (7 * hit_pct s + 3 * flop_pct s - 300))%Z.

Definition with_pilot (s : Sliders) (p : Z) : Sliders :=
  mkSliders (tv_slider s) p (flop_pct s) (hit_pct s).

(** ** Further tests run at every slider setting *)

Definition zero64 : B64.t := of_int 0.

(** The ranges of the inputs a setting gives, in exact arithmetic. *)
Definition sliders_range_check (s : Sliders) : bool :=
  let q := exact s in
  negb (Qle_bool (c_tv q) 0) && negb (Qle_bool (c_pilot q) 0)
  && negb (Qle_bool (c_tv q) (c_pilot q))
  && negb (Qle_bool (flop_rate q) 0) && negb (Qle_bool 1 (flop_rate q))
  && negb (Qle_bool (hit_rate q) 0) && negb (Qle_bool 1 (hit_rate q))
  && Bool.eqb (Qle_bool (flop_rate q + hit_rate q) 1)
              (flop_pct s + hit_pct s <=? 100)%Z.

(** The signs of the three ROI figures against the integers. *)
Definition sign_check (x : B64.t) (z : Z) : bool :=
  Bool.eqb (ltb x zero64) (z <? 0)%Z && Bool.eqb (ltb zero64 x) (0 <? z)%Z.

Definition roi_sign_check (s : Sliders) : bool :=
  sign_check (leg_roi (b64 s)) (leg_int s)
  && ((prop_int s =? 0)%Z || sign_check (prop_roi (b64 s)) (prop_int s))
  && sign_check (cash_freed (b64 s)) (cash_int s).

(** [cash_freed] at every larger flop rate and at every larger pilot cost. *)
Definition cash_monotone_check (s : Sliders) : bool :=
  forallb (fun f2 =>
    if (flop_pct s <? f2)%Z then
      ltb (cash_freed (b64 s)) (cash_freed (b64 (with_flop s f2)))
    else true) flop_stops
  && forallb (fun p2 =>
    if (pilot_tenths s <? p2)%Z then
      ltb (cash_freed (b64 (with_pilot s p2))) (cash_freed (b64 s))
    else true) pilot_stops.

(** Whether the chart's total bar meets the proposed ROI. *)
Definition bridge_closes_check (s : Sliders) : bool :=
  Bool.eqb (close (bridge_total (b64 s)) (prop_roi (b64 s))) (gap_int s =? 0)%Z.

(** The directions of the first three steps of the bridge. *)
Definition step_sign_check (s : Sliders) : bool :=
  ltb zero64 (savings_on_flops (b64 s))
  && ltb (cost_of_piloting (b64 s)) zero64
  && ltb (lost_salvage_rev (b64 s)) zero64.

(** The segments of the two bars. *)
Definition bars_check (s : Sliders) : bool :=
  let i := b64 s in
  ltb zero64 (prop_waste i) && ltb (prop_waste i) (leg_waste i)
  && ltb zero64 (leg_productive i)
  && (halts s || ltb zero64 (prop_productive i)).

(** The three groups of shows against the portfolio. *)
Definition cohort_check (s : Sliders) : bool :=
  let i := b64 s in
  eqb (flops_killed i + N * avg_rate i + N * hit_rate i)%num N.

(** The figures at twice the costs. *)
Definition doubling_check (s : Sliders) : bool :=
  let i := b64 s in
  let j := scale_costs (of_int 2) i in
  eqb (leg_roi j) (of_int 2 * leg_roi i)%num
  && eqb (prop_roi j) (of_int 2 * prop_roi i)%num
  && eqb (cash_freed j) (of_int 2 * cash_freed i)%num
  && Bool.eqb (ltb (avg_rate j) zero64) (ltb (avg_rate i) zero64).

(** ** General facts about one run *)

Section Runs.
Context {num : Type} `{Ops num}.

Lemma evaluate_some (i : Inputs num) (r : Result num) :
  evaluate i = Some r -> r = figures i.
Proof.
  unfold evaluate. destruct (ltb (avg_rate i) (of_int 0)); congruence.
Qed.

Lemma evaluate_none (i : Inputs num) :
  evaluate i = None <-> ltb (avg_rate i) (of_int 0) = true.
Proof.
  unfold evaluate. destruct (ltb (avg_rate i) (of_int 0)); split; congruence.
Qed.

(** The total bar of the chart stands at the legacy ROI plus the four
    steps, added from left to right. *)
Lemma bridge_total_steps (i : Inputs num) :
  bridge_total i = fold_left add (bridge_steps i) (leg_roi i).
Proof. reflexivity. Qed.
End Runs.

Lemma forall_sliders_spec (P : Sliders -> bool) :
  forall_sliders P = true -> forall s, on_sliders s -> P s = true.
Proof.
  unfold forall_sliders, on_sliders.
  intros HP [tv p f h]; simpl; intros (Htv & Hp & Hf & Hh).
  rewrite forallb_forall in HP. specialize (HP tv Htv).
  rewrite forallb_forall in HP. specialize (HP p Hp).
  rewrite forallb_forall in HP. specialize (HP f Hf).
  rewrite forallb_forall in HP. exact (HP h Hh).
Qed.

(** ** Exact arithmetic *)

Ltac exact_norm :=
  cbv [figures evaluate
       r_avg_rate r_leg_cost r_leg_rev r_leg_roi r_pilot_spend r_prop_cost_avg
       r_prop_cost_hits r_prop_total_cost r_prop_rev r_prop_roi r_cash_freed
       r_leg_waste r_leg_productive r_prop_waste r_prop_productive
       avg_rate N rev_flop rev_avg rev_hit leg_cost leg_rev leg_roi pilot_spend
       flops_killed cost_avg_show cost_hit_show prop_cost_avg prop_cost_hits
       prop_total_cost prop_rev prop_roi cash_freed savings_on_flops
       cost_of_piloting contract_variance lost_salvage_rev bridge_steps
       bridge_total waterfall_levels waterfall_measure waterfall_y combine
       last fold_left leg_waste leg_productive prop_waste prop_productive
       spec_rev_flop spec_rev_avg spec_rev_hit spec_a spec_legacy_cost
       spec_legacy_revenue spec_pilot_spend spec_production_cost
       spec_proposed_cost spec_proposed_revenue
       spec_saved_tv_production_on_flops spec_micro_pilot_costs
       spec_lost_salvage_revenue spec_contract_impact
       dec add sub mul div opp of_int Exact.ops
       c_tv c_pilot flop_rate hit_rate
       inject_Z Z.pow Z.of_nat Pos.of_succ_nat Z.pow_pos Pos.iter
       Z.mul Pos.mul Pos.succ Pos.add] in *.

(** In the exact reading the guard is the precondition of the
    specification: the run halts exactly when the two rates exceed one. *)
Lemma halts_iff_exact (q : Inputs Q) :
  evaluate q = None <-> 1 < flop_rate q + hit_rate q.
Proof.
  rewrite evaluate_none. destruct q as [tv cp f h].
  cbv [ltb Exact.ops]. rewrite negb_true_iff, <- not_true_iff_false, Qle_bool_iff.
  exact_norm. split; intros L.
  - apply Qnot_le_lt in L. setoid_replace (10 / 10) with 1 in L by reflexivity. lra.
  - apply Qlt_not_le. setoid_replace (10 / 10) with 1 by reflexivity. lra.
Qed.

Lemma runs_when_valid (q : Inputs Q) : valid q -> evaluate q = Some (figures q).
Proof.
  intros V. destruct (evaluate q) as [r|] eqn:E.
  - now rewrite (evaluate_some _ _ E).
  - apply halts_iff_exact in E. unfold valid in V. lra.
Qed.

(** ** Binary64 arithmetic *)

Lemma SFmul_comm (prec emax : Z) (x y : SpecFloat.spec_float) :
  SpecFloat.SFmul prec emax x y = SpecFloat.SFmul prec emax y x.
Proof.
  destruct x as [sx|sx| |sx mx ex], y as [sy|sy| |sy my ey]; simpl;
    try reflexivity; try (now rewrite xorb_comm).
  now rewrite xorb_comm, Pos.mul_comm, Z.add_comm.
Qed.

Lemma b64_mul_comm (x y : B64.t) : mul x y = mul y x.
Proof.
  apply FloatAxioms.Prim2SF_inj. cbn [mul B64.ops].
  rewrite !FloatAxioms.mul_spec. apply SFmul_comm.
Qed.

(** The literal [1.0] of the script is the integer one. *)
Lemma b64_one : @dec B64.t _ 10 1 = of_int 1.
Proof. reflexivity. Qed.

(** [dec] gives the decimal literals of the script the value Rocq's own
    parser of float literals gives them. *)
Module Literals.
Import PrimFloat.
#[local] Set Warnings "-inexact-float".

Lemma literals :
  @dec B64.t _ 2 1 = 0.2%float /\ @dec B64.t _ 11 1 = 1.1%float /\
  @dec B64.t _ 20 1 = 2.0%float /\ @dec B64.t _ 85 2 = 0.85%float /\
  @dec B64.t _ 120 2 = 1.20%float /\ @dec B64.t _ 1000 1 = 100.0%float /\
  @dec B64.t _ 1 9 = 1e-9%float.
Proof. repeat split; reflexivity. Qed.
End Literals.

Lemma b64_avg_rate (i : Inputs B64.t) : avg_rate i = spec_a i.
Proof. unfold avg_rate, spec_a. now rewrite b64_one. Qed.

Lemma b64_rev (i : Inputs B64.t) :
  rev_flop i = spec_rev_flop i /\ rev_avg i = spec_rev_avg i /\ rev_hit i = spec_rev_hit i.
Proof. repeat split; apply b64_mul_comm. Qed.

(** ** Legacy strategy *)

(** C4.  The legacy figures are those of the specification: cost
    [N * tv_cost], revenue [N * (f * rev_flop + a * rev_avg + h * rev_hit)]
    with the three revenue multiples [0.2], [1.1], [2.0] of [tv_cost] and
    [a = 1 - f - h], and ROI revenue minus cost.  In the exact reading every
    valid input runs and has these figures; in binary64 every run has them,
    bit for bit, whatever the input. *)
Theorem legacy_formulas (q : Inputs Q) (i : Inputs B64.t) (r : Result B64.t) :
  valid q -> evaluate i = Some r ->
  (exists rq, evaluate q = Some rq /\
     r_leg_cost rq == spec_legacy_cost q /\
     r_leg_rev rq == spec_legacy_revenue q /\
     r_leg_roi rq == r_leg_rev rq - r_leg_cost rq) /\
  (r_leg_cost r = spec_legacy_cost i /\
   r_leg_rev r = spec_legacy_revenue i /\
   r_leg_roi r = (r_leg_rev r - r_leg_cost r)%num).
Proof.
  intros V E. split.
  - exists (figures q). split; [now apply runs_when_valid|].
    destruct q as [tv cp f h]. exact_norm. repeat split; try reflexivity. field.
  - rewrite (evaluate_some _ _ E). cbn [figures r_leg_cost r_leg_rev r_leg_roi].
    repeat split.
    unfold leg_rev, spec_legacy_revenue.
    destruct (b64_rev i) as (-> & -> & ->). now rewrite b64_avg_rate.
Qed.

Lemma legacy_formulas_witness :
  exists r, evaluate (b64 ref_sliders) = Some r /\
    r_leg_cost r = spec_legacy_cost (b64 ref_sliders) /\
    r_leg_rev r = spec_legacy_revenue (b64 ref_sliders).
Proof.
  exists (figures (b64 ref_sliders)).
  assert (V : valid (exact ref_sliders)).
  { unfold valid. repeat split; vm_compute; (discriminate || reflexivity). }
  assert (E : evaluate (b64 ref_sliders) = Some (figures (b64 ref_sliders))).
  { vm_compute. reflexivity. }
  split; [exact E|].
  destruct (legacy_formulas (exact ref_sliders) (b64 ref_sliders) _ V E)
    as (_ & Hc & Hr & _).
  split; [exact Hc | exact Hr].
Defined.

(** ** Proposed strategy *)

Lemma proposed_cost_sweep : forall_sliders proposed_cost_check = true.
Proof. vm_compute. reflexivity. Qed.

(** The script adds the three cost terms from left to right; the
    specification adds the pilot spend to the sum of the other two.  In
    binary64 the two orders can differ in the last bit. *)
Lemma proposed_cost_last_bit :
  let i := b64 (mkSliders 20 15 70 25) in
  eqb (prop_total_cost i) (spec_proposed_cost i) = false /\
  close (prop_total_cost i) (spec_proposed_cost i) = true.
Proof. split; vm_compute; reflexivity. Qed.

(** C5.  The proposed figures are those of the specification: pilot spend
    [N * pilot_cost], production cost
    [(N * a) * (pilot_cost + 0.85 * tv_cost) + (N * h) * (pilot_cost + 1.20 * tv_cost)],
    cost their sum, revenue [N * a * rev_avg + N * h * rev_hit], ROI revenue
    minus cost.  Exactly so in the exact reading, on every valid input; in
    binary64 bit for bit on every run, except the cost, whose three terms the
    script adds in another order: it agrees within [1e-9] at every slider
    setting. *)
Theorem proposed_formulas
    (q : Inputs Q) (i : Inputs B64.t) (r : Result B64.t) (s : Sliders) :
  valid q -> evaluate i = Some r -> on_sliders s ->
  (exists rq, evaluate q = Some rq /\
     r_pilot_spend rq == spec_pilot_spend q /\
     r_prop_cost_avg rq + r_prop_cost_hits rq == spec_production_cost q /\
     r_prop_total_cost rq == spec_proposed_cost q /\
     r_prop_total_cost rq == r_pilot_spend rq + (r_prop_cost_avg rq + r_prop_cost_hits rq) /\
     r_prop_rev rq == spec_proposed_revenue q /\
     r_prop_roi rq == r_prop_rev rq - r_prop_total_cost rq) /\
  (r_pilot_spend r = spec_pilot_spend i /\
   (r_prop_cost_avg r + r_prop_cost_hits r)%num = spec_production_cost i /\
   r_prop_rev r = spec_proposed_revenue i /\
   r_prop_roi r = (r_prop_rev r - r_prop_total_cost r)%num) /\
  close (prop_total_cost (b64 s)) (spec_proposed_cost (b64 s)) = true.
Proof.
  intros V E S. split; [|split].
  - exists (figures q). split; [now apply runs_when_valid|].
    destruct q as [tv cp f h]. exact_norm.
    repeat split; try reflexivity; field.
  - rewrite (evaluate_some _ _ E).
    cbn [figures r_pilot_spend r_prop_cost_avg r_prop_cost_hits r_prop_rev
         r_prop_roi r_prop_total_cost].
    repeat split.
    + unfold prop_cost_avg, prop_cost_hits, spec_production_cost,
        cost_avg_show, cost_hit_show.
      now rewrite b64_avg_rate, (b64_mul_comm (c_tv i)), (b64_mul_comm (c_tv i)).
    + unfold prop_rev, spec_proposed_revenue.
      destruct (b64_rev i) as (_ & -> & ->). now rewrite b64_avg_rate.
  - exact (forall_sliders_spec _ proposed_cost_sweep s S).
Qed.

Lemma proposed_formulas_witness :
  exists r, evaluate (b64 ref_sliders) = Some r /\
    (r_prop_cost_avg r + r_prop_cost_hits r)%num = spec_production_cost (b64 ref_sliders) /\
    close (prop_total_cost (b64 ref_sliders)) (spec_proposed_cost (b64 ref_sliders)) = true.
Proof.
  exists (figures (b64 ref_sliders)).
  assert (V : valid (exact ref_sliders)).
  { unfold valid. repeat split; vm_compute; (discriminate || reflexivity). }
  assert (E : evaluate (b64 ref_sliders) = Some (figures (b64 ref_sliders))).
  { vm_compute. reflexivity. }
  assert (S : on_sliders ref_sliders).
  { unfold on_sliders. vm_compute. intuition. }
  split; [exact E|].
  destruct (proposed_formulas (exact ref_sliders) (b64 ref_sliders) _ ref_sliders V E S)
    as (_ & (_ & Hp & _) & Hc).
  split; [exact Hp | exact Hc].
Defined.

(** ** Capital split *)

Lemma capital_split_sweep : forall_sliders capital_split_check = true.
Proof. vm_compute. reflexivity. Qed.

(** C7.  Wasted capital is [N * f * tv_cost] for the legacy strategy and
    [N * f * pilot_cost] for the proposed one, and wasted plus productive
    capital is the strategy's total cost: exactly so in the exact reading on
    every valid input, and in binary64 (with Python's [==]) on every run
    from the sliders. *)
Theorem capital_split (q : Inputs Q) (s : Sliders) (r : Result B64.t) :
  valid q -> on_sliders s -> evaluate (b64 s) = Some r ->
  (exists rq, evaluate q = Some rq /\
     r_leg_waste rq == N * flop_rate q * c_tv q /\
     r_prop_waste rq == N * flop_rate q * c_pilot q /\
     r_leg_waste rq + r_leg_productive rq == r_leg_cost rq /\
     r_prop_waste rq + r_prop_productive rq == r_prop_total_cost rq) /\
  (r_leg_waste r = (N * flop_rate (b64 s) * c_tv (b64 s))%num /\
   r_prop_waste r = (N * flop_rate (b64 s) * c_pilot (b64 s))%num /\
   eqb (r_leg_waste r + r_leg_productive r)%num (r_leg_cost r) = true /\
   eqb (r_prop_waste r + r_prop_productive r)%num (r_prop_total_cost r) = true).
Proof.
  intros V S E. split.
  - exists (figures q). split; [now apply runs_when_valid|].
    destruct q as [tv cp f h]. exact_norm.
    repeat split; try reflexivity; ring.
  - rewrite (evaluate_some _ _ E).
    pose proof (forall_sliders_spec _ capital_split_sweep s S) as C.
    unfold capital_split_check in C. apply andb_true_iff in C as [C1 C2].
    cbn [figures r_leg_waste r_prop_waste r_leg_productive r_prop_productive
         r_leg_cost r_prop_total_cost].
    repeat split; assumption.
Qed.

Lemma capital_split_witness :
  exists r, evaluate (b64 ref_sliders) = Some r /\
    eqb (r_leg_waste r + r_leg_productive r)%num (r_leg_cost r) = true /\
    eqb (r_prop_waste r + r_prop_productive r)%num (r_prop_total_cost r) = true.
Proof.
  exists (figures (b64 ref_sliders)).
  assert (V : valid (exact ref_sliders)).
  { unfold valid. repeat split; vm_compute; (discriminate || reflexivity). }
  assert (S : on_sliders ref_sliders).
  { unfold on_sliders. vm_compute. intuition. }
  assert (E : evaluate (b64 ref_sliders) = Some (figures (b64 ref_sliders))).
  { vm_compute. reflexivity. }
  split; [exact E|].
  destruct (capital_split (exact ref_sliders) ref_sliders _ V S E)
    as (_ & _ & _ & Hl & Hp).
  split; [exact Hl | exact Hp].
Defined.

(** ** Revenue comparisons *)

Lemma revenue_gap_sweep : forall_sliders revenue_gap_check = true.
Proof. vm_compute. reflexivity. Qed.

(** The revenue the legacy strategy earns over the proposed one, exactly. *)
Lemma revenue_gap_exact (q : Inputs Q) :
  leg_rev q - prop_rev q == N * flop_rate q * rev_flop q.
Proof. destruct q as [tv cp f h]. exact_norm. field. Qed.

Lemma salvage_exact (q : Inputs Q) :
  N * flop_rate q * rev_flop q == 2 * (flop_rate q * c_tv q).
Proof. destruct q as [tv cp f h]. exact_norm. field. Qed.

Lemma cash_freed_exact (q : Inputs Q) :
  cash_freed q == (prop_rev q - leg_rev q) + (leg_cost q - prop_total_cost q).
Proof. destruct q as [tv cp f h]. exact_norm. ring. Qed.

(** C9.  The proposed revenue never exceeds the legacy revenue: the gap is
    exactly the salvage revenue [N * f * rev_flop], which is not negative,
    and it vanishes only when [f * tv_cost = 0]; hence a positive
    [cash_freed] needs a lower cost.  Exactly so in the exact reading on
    every valid input; in binary64, on every run from the sliders, the
    proposed revenue is at most the legacy one and the gap is the salvage
    revenue within [1e-9]. *)
Theorem proposed_revenue_le_legacy (q : Inputs Q) (s : Sliders) (r : Result B64.t) :
  valid q -> on_sliders s -> evaluate (b64 s) = Some r ->
  (exists rq, evaluate q = Some rq /\
     r_prop_rev rq <= r_leg_rev rq /\
     r_leg_rev rq - r_prop_rev rq == N * flop_rate q * rev_flop q /\
     0 <= N * flop_rate q * rev_flop q /\
     (r_prop_rev rq == r_leg_rev rq <-> flop_rate q * c_tv q == 0) /\
     (0 < r_cash_freed rq -> r_prop_total_cost rq < r_leg_cost rq)) /\
  (leb (r_prop_rev r) (r_leg_rev r) = true /\
   close (r_leg_rev r - r_prop_rev r)%num
         (N * flop_rate (b64 s) * rev_flop (b64 s))%num = true).
Proof.
  intros V S E. split.
  - exists (figures q). split; [now apply runs_when_valid|].
    cbn [figures r_prop_rev r_leg_rev r_cash_freed r_prop_total_cost r_leg_cost].
    pose proof (revenue_gap_exact q) as G.
    pose proof (salvage_exact q) as L.
    pose proof (cash_freed_exact q) as F.
    assert (P : 0 <= flop_rate q * c_tv q).
    { unfold valid in V. apply Qmult_le_0_compat; lra. }
    repeat split; try lra.
  - rewrite (evaluate_some _ _ E).
    pose proof (forall_sliders_spec _ revenue_gap_sweep s S) as C.
    unfold revenue_gap_check in C. apply andb_true_iff in C as [C1 C2].
    cbn [figures r_prop_rev r_leg_rev]. split; assumption.
Qed.

Lemma proposed_revenue_le_legacy_witness :
  exists r, evaluate (b64 ref_sliders) = Some r /\
    leb (r_prop_rev r) (r_leg_rev r) = true.
Proof.
  exists (figures (b64 ref_sliders)).
  assert (V : valid (exact ref_sliders)).
  { unfold valid. repeat split; vm_compute; (discriminate || reflexivity). }
  assert (S : on_sliders ref_sliders).
  { unfold on_sliders. vm_compute. intuition. }
  assert (E : evaluate (b64 ref_sliders) = Some (figures (b64 ref_sliders))).
  { vm_compute. reflexivity. }
  split; [exact E|].
  destruct (proposed_revenue_le_legacy (exact ref_sliders) ref_sliders _ V S E)
    as (_ & Hl & _).
  exact Hl.
Defined.

(** ** Monotonicity in the flop rate *)

Lemma legacy_monotone_sweep : forall_sliders legacy_monotone_check = true.
Proof. vm_compute. reflexivity. Qed.

Lemma leg_rev_exact (q : Inputs Q) :
  leg_rev q == c_tv q * (11 + 9 * hit_rate q) - 9 * (flop_rate q * c_tv q).
Proof. destruct q as [tv cp f h]. exact_norm. field. Qed.

Lemma leg_roi_exact (q : Inputs Q) : leg_roi q == leg_rev q - 10 * c_tv q.
Proof. destruct q as [tv cp f h]. exact_norm. ring. Qed.

(** C8.  Of two valid inputs that differ only in the flop rate, the one
    with the strictly larger flop rate has the strictly smaller legacy
    revenue and the strictly smaller legacy ROI: in the exact reading for
    every such pair, in binary64 (with Python's [<]) for every such pair of
    runs from the sliders. *)
Theorem legacy_decreases_in_flop_rate
    (q1 q2 : Inputs Q) (s1 s2 : Sliders) (r1 r2 : Result B64.t) :
  valid q1 -> valid q2 ->
  c_tv q1 == c_tv q2 -> c_pilot q1 == c_pilot q2 -> hit_rate q1 == hit_rate q2 ->
  flop_rate q1 < flop_rate q2 ->
  on_sliders s1 -> on_sliders s2 ->
  tv_slider s1 = tv_slider s2 -> pilot_tenths s1 = pilot_tenths s2 ->
  hit_pct s1 = hit_pct s2 -> (flop_pct s1 < flop_pct s2)%Z ->
  evaluate (b64 s1) = Some r1 -> evaluate (b64 s2) = Some r2 ->
  (exists p1 p2, evaluate q1 = Some p1 /\ evaluate q2 = Some p2 /\
     r_leg_rev p2 < r_leg_rev p1 /\ r_leg_roi p2 < r_leg_roi p1) /\
  (ltb (r_leg_rev r2) (r_leg_rev r1) = true /\
   ltb (r_leg_roi r2) (r_leg_roi r1) = true).
Proof.
  intros V1 V2 Etv Ecp Eh Lf S1 S2 Ztv Zp Zh Zf E1 E2. split.
  - exists (figures q1), (figures q2).
    split; [now apply runs_when_valid|]. split; [now apply runs_when_valid|].
    cbn [figures r_leg_rev r_leg_roi].
    pose proof (leg_rev_exact q1) as R1. pose proof (leg_rev_exact q2) as R2.
    pose proof (leg_roi_exact q1) as O1. pose proof (leg_roi_exact q2) as O2.
    rewrite Etv, Eh in R1.
    assert (P : 0 < (flop_rate q2 - flop_rate q1) * c_tv q2).
    { unfold valid in V2. apply Qmult_lt_0_compat; lra. }
    assert (D : (flop_rate q2 - flop_rate q1) * c_tv q2
                == flop_rate q2 * c_tv q2 - flop_rate q1 * c_tv q2) by ring.
    split; lra.
  - rewrite (evaluate_some _ _ E1), (evaluate_some _ _ E2).
    cbn [figures r_leg_rev r_leg_roi].
    pose proof (forall_sliders_spec _ legacy_monotone_sweep s1 S1) as C.
    unfold legacy_monotone_check in C. rewrite forallb_forall in C.
    destruct S2 as (_ & _ & F2 & _). specialize (C _ F2).
    apply Z.ltb_lt in Zf. rewrite Zf in C.
    replace (with_flop s1 (flop_pct s2)) with s2 in C.
    + now apply andb_true_iff in C.
    + destruct s1, s2; unfold with_flop; simpl in *; congruence.
Qed.

Lemma legacy_decreases_in_flop_rate_witness :
  exists r1 r2,
    evaluate (b64 ref_sliders) = Some r1 /\
    evaluate (b64 (with_flop ref_sliders 65)) = Some r2 /\
    ltb (r_leg_rev r2) (r_leg_rev r1) = true /\
    ltb (r_leg_roi r2) (r_leg_roi r1) = true.
Proof.
  exists (figures (b64 ref_sliders)), (figures (b64 (with_flop ref_sliders 65))).
  assert (V1 : valid (exact ref_sliders)).
  { unfold valid. repeat split; vm_compute; (discriminate || reflexivity). }
  assert (V2 : valid (exact (with_flop ref_sliders 65))).
  { unfold valid. repeat split; vm_compute; (discriminate || reflexivity). }
  assert (S1 : on_sliders ref_sliders).
  { unfold on_sliders. vm_compute. intuition. }
  assert (S2 : on_sliders (with_flop ref_sliders 65)).
  { unfold on_sliders. vm_compute. intuition. }
  assert (E1 : evaluate (b64 ref_sliders) = Some (figures (b64 ref_sliders))).
  { vm_compute. reflexivity. }
  assert (E2 : evaluate (b64 (with_flop ref_sliders 65))
               = Some (figures (b64 (with_flop ref_sliders 65)))).
  { vm_compute. reflexivity. }
  split; [exact E1|]. split; [exact E2|].
  refine (proj2 (legacy_decreases_in_flop_rate
    (exact ref_sliders) (exact (with_flop ref_sliders 65))
    ref_sliders (with_flop ref_sliders 65) _ _
    V1 V2 _ _ _ _ S1 S2 _ _ _ _ E1 E2));
    try reflexivity; vm_compute; reflexivity.
Defined.

(** ** The guard *)

Lemma halting_sweep : forall_sliders halting_check = true.
Proof. vm_compute. reflexivity. Qed.

(** The slider settings at which the binary64 run halts: those whose two
    percentages exceed 100, and the setting 80 + 20. *)
Lemma halting_settings (s : Sliders) :
  on_sliders s ->
  (evaluate (b64 s) = None <->
   (100 < flop_pct s + hit_pct s)%Z \/ (flop_pct s = 80 /\ hit_pct s = 20)%Z).
Proof.
  intros S. pose proof (forall_sliders_spec _ halting_sweep s S) as C.
  unfold halting_check in C. apply Bool.eqb_prop in C. unfold halts in C.
  rewrite <- Z.ltb_lt, <- !Z.eqb_eq, <- andb_true_iff, <- orb_true_iff, <- C.
  destruct (evaluate (b64 s)); split; congruence.
Qed.

(** C3, at the boundary.  With the flop slider at 80 and the hit slider at
    20 the two rates add up to one (as percentages, in exact arithmetic and
    with Python's [+] and [==]) and do not exceed it, yet the binary64 run
    halts: [1.0 - 0.8 - 0.2] is [-2^-54].  The same boundary runs in exact
    arithmetic and at the slider settings 75 + 25 and 70 + 30. *)
Theorem boundary_80_20_halts :
  let s := mkSliders 50 20 80 20 in
  on_sliders s /\
  (flop_pct s + hit_pct s = 100)%Z /\
  eqb (flop_rate (b64 s) + hit_rate (b64 s))%num (of_int 1) = true /\
  ltb (of_int 1) (flop_rate (b64 s) + hit_rate (b64 s))%num = false /\
  flop_rate (exact s) + hit_rate (exact s) == 1 /\
  avg_rate (b64 s) = (of_int (-1) / of_int (2 ^ 54))%num /\
  evaluate (b64 s) = None /\
  evaluate (exact s) = Some (figures (exact s)) /\
  evaluate (b64 (mkSliders 50 20 75 25)) = Some (figures (b64 (mkSliders 50 20 75 25))) /\
  evaluate (b64 (mkSliders 50 20 70 30)) = Some (figures (b64 (mkSliders 50 20 70 30))).
Proof.
  cbv zeta. repeat split; try (vm_compute; intuition congruence).
Qed.

(** ** The reference scenario *)

(** C6.  At the sidebar defaults ([tv_cost = 50], [pilot_cost = 2.0],
    [flop_rate = 0.60], [hit_rate = 0.10], [N = 10]) the run yields
    [avg_rate = 0.30], legacy cost 500, revenue 325 and ROI -175, pilot spend
    20, production cost 195.5, proposed cost 215.5, revenue 265 and ROI
    49.5, and [cash_freed = 224.5]: within [1e-9] in binary64, and exactly
    in the exact reading. *)
Theorem reference_scenario :
  (c_tv (b64 ref_sliders) = of_int 50 /\ c_pilot (b64 ref_sliders) = dec 20 1 /\
   flop_rate (b64 ref_sliders) = dec 60 2 /\ hit_rate (b64 ref_sliders) = dec 10 2 /\
   N = of_int 10 :> B64.t) /\
  (exists r, evaluate (b64 ref_sliders) = Some r /\
     close (r_avg_rate r) (dec 30 2) = true /\
     close (r_leg_cost r) (of_int 500) = true /\
     close (r_leg_rev r) (of_int 325) = true /\
     close (r_leg_roi r) (of_int (-175)) = true /\
     close (r_pilot_spend r) (of_int 20) = true /\
     close (r_prop_cost_avg r + r_prop_cost_hits r)%num (dec 1955 1) = true /\
     close (r_prop_total_cost r) (dec 2155 1) = true /\
     close (r_prop_rev r) (of_int 265) = true /\
     close (r_prop_roi r) (dec 495 1) = true /\
     close (r_cash_freed r) (dec 2245 1) = true) /\
  (exists rq, evaluate (exact ref_sliders) = Some rq /\
     r_avg_rate rq == 3 # 10 /\
     r_leg_cost rq == 500 /\
     r_leg_rev rq == 325 /\
     r_leg_roi rq == -175 /\
     r_pilot_spend rq == 20 /\
     r_prop_cost_avg rq + r_prop_cost_hits rq == 391 # 2 /\
     r_prop_total_cost rq == 431 # 2 /\
     r_prop_rev rq == 265 /\
     r_prop_roi rq == 99 # 2 /\
     r_cash_freed rq == 449 # 2).
Proof.
  split; [|split].
  - repeat split; vm_compute; reflexivity.
  - exists (figures (b64 ref_sliders)). repeat split; vm_compute; reflexivity.
  - exists (figures (exact ref_sliders)). repeat split; vm_compute; reflexivity.
Qed.

(** ** The proposed strategy does not always win *)

(** C10.  At the slider setting [tv_cost = 20], [pilot_cost = 5.0],
    [flop_rate = 0.30], [hit_rate = 0.30], which is valid, the run yields
    [cash_freed = -37], strictly negative. *)
Theorem cash_freed_can_be_negative :
  exists s,
    s = mkSliders 20 50 30 30 /\ on_sliders s /\
    (flop_pct s + hit_pct s <= 100)%Z /\ valid (exact s) /\
    (exists r, evaluate (b64 s) = Some r /\
       ltb (r_cash_freed r) (of_int 0) = true /\
       r_cash_freed r = of_int (-37)) /\
    (exists rq, evaluate (exact s) = Some rq /\
       r_cash_freed rq < 0 /\ r_cash_freed rq == -37).
Proof.
  exists (mkSliders 20 50 30 30). split; [reflexivity|].
  split; [unfold on_sliders; vm_compute; intuition|].
  split; [vm_compute; discriminate|].
  split; [unfold valid; repeat split; vm_compute; (discriminate || reflexivity)|].
  split.
  - exists (figures (b64 (mkSliders 20 50 30 30))).
    repeat split; vm_compute; reflexivity.
  - exists (figures (exact (mkSliders 20 50 30 30))).
    repeat split; vm_compute; reflexivity.
Qed.

(** ** The value bridge *)

(** What the running total of the chart misses the proposed ROI by. *)
Lemma bridge_gap_exact (q : Inputs Q) :
  bridge_total q - prop_roi q
  == N * ((1 - 2 * flop_rate q) * c_pilot q
          + c_tv q * ((7 # 10) * hit_rate q + (3 # 10) * flop_rate q - (3 # 10))).
Proof. destruct q as [tv cp f h]. exact_norm. field. Qed.

(** The first three steps are those of the specification; the fourth is
    not the residual. *)
Lemma bridge_steps_exact (q : Inputs Q) :
  savings_on_flops q == spec_saved_tv_production_on_flops q /\
  cost_of_piloting q == spec_micro_pilot_costs q /\
  lost_salvage_rev q == spec_lost_salvage_revenue q /\
  contract_variance q == - spec_contract_impact q - N * c_pilot q.
Proof. destruct q as [tv cp f h]. exact_norm. repeat split; field. Qed.

(** With the residual in the fourth place the bridge would close. *)
Lemma residual_closes_exact (q : Inputs Q) :
  leg_roi q + spec_saved_tv_production_on_flops q + spec_micro_pilot_costs q
  + spec_lost_salvage_revenue q + spec_contract_impact q == prop_roi q.
Proof. destruct q as [tv cp f h]. exact_norm. field. Qed.

(** C1, at the sidebar defaults.  The four steps sum to 195.5, while
    [proposed.roi - legacy.roi] is 224.5: the chart's running total, the
    legacy ROI plus the four steps, stands at 20.5 where the proposed ROI is
    49.5. *)
Theorem bridge_misses_proposed_roi :
  let i := b64 ref_sliders in
  let q := exact ref_sliders in
  evaluate i = Some (figures i) /\
  bridge_steps i = [of_int 300; of_int (-20); of_int (-60); dec (-245) 1] /\
  close (cash_freed i) (dec 2245 1) = true /\
  close (fold_left add (bridge_steps i) (of_int 0)) (cash_freed i) = false /\
  bridge_total i = dec 205 1 /\
  close (prop_roi i) (dec 495 1) = true /\
  close (bridge_total i) (prop_roi i) = false /\
  fold_left add (bridge_steps q) 0 == 391 # 2 /\ cash_freed q == 449 # 2 /\
  bridge_total q == 41 # 2 /\ prop_roi q == 99 # 2 /\
  ~ bridge_total q == prop_roi q.
Proof.
  cbv zeta. repeat split; try (vm_compute; reflexivity).
  vm_compute. discriminate.
Qed.

(** C2, at the sidebar defaults.  The first three steps are those of the
    specification, the fourth is not the residual
    [proposed.roi - legacy.roi] minus the three: the script's
    [contract_variance] is -24.5, the residual is 4.5. *)
Theorem contract_variance_is_not_the_residual :
  let i := b64 ref_sliders in
  let q := exact ref_sliders in
  savings_on_flops i = spec_saved_tv_production_on_flops i /\
  cost_of_piloting i = spec_micro_pilot_costs i /\
  lost_salvage_rev i = spec_lost_salvage_revenue i /\
  contract_variance i = dec (-245) 1 /\
  close (spec_contract_impact i) (dec 45 1) = true /\
  close (contract_variance i) (spec_contract_impact i) = false /\
  contract_variance q == - (49 # 2) /\ spec_contract_impact q == 9 # 2 /\
  ~ contract_variance q == spec_contract_impact q.
Proof.
  cbv zeta. repeat split; try (vm_compute; reflexivity).
  vm_compute. discriminate.
Qed.

(** * Further properties of the script *)

(** ** Helpers *)

Lemma Qlt_of_bool (a b : Q) : negb (Qle_bool b a) = true -> a < b.
Proof.
  rewrite negb_true_iff, <- not_true_iff_false, Qle_bool_iff.
  apply Qnot_le_lt.
Qed.

Lemma Qmult_pos_sign (t x : Q) : 0 < t -> (t * x < 0 <-> x < 0).
Proof.
  intros T. split; intros L.
  - destruct (Qlt_le_dec x 0) as [|G]; [assumption|].
    pose proof (Qmult_le_0_compat t x (Qlt_le_weak _ _ T) G). lra.
  - assert (P : 0 < t * (- x)) by (apply Qmult_lt_0_compat; lra).
    assert (E : t * (- x) == - (t * x)) by ring. lra.
Qed.

Lemma sign_check_spec (x : B64.t) (z : Z) :
  sign_check x z = true ->
  (ltb x zero64 = true <-> (z < 0)%Z) /\ (ltb zero64 x = true <-> (0 < z)%Z).
Proof.
  unfold sign_check. rewrite andb_true_iff. intros [A B].
  apply Bool.eqb_prop in A, B. rewrite A, B, !Z.ltb_lt. tauto.
Qed.

Ltac sliders_ok := unfold on_sliders; vm_compute; intuition.
Ltac valid_ok := unfold valid; repeat split; vm_compute; (discriminate || reflexivity).

(** ** The sliders *)

Lemma sliders_range_sweep : forall_sliders sliders_range_check = true.
Proof. vm_compute. reflexivity. Qed.

(** The sliders give costs and rates within the ranges of the model, the
    pilot cost below the production cost; the only precondition a setting
    can break is that the two rates add up to at most one. *)
Theorem sliders_give_inputs_in_range (s : Sliders) :
  on_sliders s ->
  0 < c_tv (exact s) /\
  0 < c_pilot (exact s) /\ c_pilot (exact s) < c_tv (exact s) /\
  0 < flop_rate (exact s) /\ flop_rate (exact s) < 1 /\
  0 < hit_rate (exact s) /\ hit_rate (exact s) < 1 /\
  (valid (exact s) <-> (flop_pct s + hit_pct s <= 100)%Z).
Proof.
  intros S. pose proof (forall_sliders_spec _ sliders_range_sweep s S) as C.
  unfold sliders_range_check in C. cbv zeta in C.
  repeat (apply andb_true_iff in C; destruct C as [C ?]).
  repeat match goal with
         | L : negb (Qle_bool _ _) = true |- _ => apply Qlt_of_bool in L
         end.
  match goal with L : Bool.eqb _ _ = true |- _ => apply Bool.eqb_prop in L; rename L into E end.
  repeat (split; [assumption|]). split.
  - intros V. apply Z.leb_le. rewrite <- E. apply Qle_bool_iff. unfold valid in V. tauto.
  - intros L. apply Z.leb_le in L. rewrite <- E in L. apply Qle_bool_iff in L.
    unfold valid. repeat split; try assumption; try lra.
Qed.

Lemma sliders_give_inputs_in_range_witness :
  c_pilot (exact ref_sliders) < c_tv (exact ref_sliders).
Proof.
  assert (S : on_sliders ref_sliders) by sliders_ok.
  exact (proj1 (proj2 (proj2 (sliders_give_inputs_in_range ref_sliders S)))).
Defined.

Lemma halting_settings_witness : evaluate (b64 (mkSliders 50 20 80 25)) = None.
Proof.
  assert (S : on_sliders (mkSliders 50 20 80 25)) by sliders_ok.
  apply (proj2 (halting_settings (mkSliders 50 20 80 25) S)).
  left. vm_compute. reflexivity.
Defined.

(** ** The metric cards *)

Lemma roi_sign_sweep : forall_sliders roi_sign_check = true.
Proof. vm_compute. reflexivity. Qed.

Lemma roi_signs (s : Sliders) :
  on_sliders s ->
  ((ltb (leg_roi (b64 s)) zero64 = true <-> (leg_int s < 0)%Z) /\
   (ltb zero64 (leg_roi (b64 s)) = true <-> (0 < leg_int s)%Z)) /\
  (prop_int s <> 0%Z ->
   (ltb (prop_roi (b64 s)) zero64 = true <-> (prop_int s < 0)%Z) /\
   (ltb zero64 (prop_roi (b64 s)) = true <-> (0 < prop_int s)%Z)) /\
  ((ltb (cash_freed (b64 s)) zero64 = true <-> (cash_int s < 0)%Z) /\
   (ltb zero64 (cash_freed (b64 s)) = true <-> (0 < cash_int s)%Z)).
Proof.
  intros S. pose proof (forall_sliders_spec _ roi_sign_sweep s S) as C.
  unfold roi_sign_check in C.
  apply andb_true_iff in C as [C Cc]. apply andb_true_iff in C as [Cl Cp].
  split; [now apply sign_check_spec|]. split; [|now apply sign_check_spec].
  intros NZ. apply sign_check_spec.
  apply orb_true_iff in Cp as [Z0|Cp]; [|exact Cp].
  apply Z.eqb_eq in Z0. contradiction.
Qed.

Lemma leg_roi_factored (q : Inputs Q) :
  leg_roi q == c_tv q * (1 + 9 * hit_rate q - 9 * flop_rate q).
Proof. destruct q as [tv cp f h]. exact_norm. field. Qed.

(** The legacy card is captioned negative exactly when the flop rate
    exceeds the hit rate by more than one ninth: in the exact reading on
    every valid input, and in binary64 at every slider setting (nine times
    the difference of the percentages above 100).  The proposed and cash
    cards are captioned positive whatever their value, which is negative at
    the slider settings whose integer figure is. *)
Theorem card_captions (q : Inputs Q) (s : Sliders) :
  valid q -> on_sliders s ->
  (card_delta (legacy_card q) = delta_negative
   <-> hit_rate q + (1 # 9) < flop_rate q) /\
  (card_delta (legacy_card (b64 s)) = delta_negative
   <-> (100 + 9 * hit_pct s < 9 * flop_pct s)%Z) /\
  (card_delta (proposed_card (b64 s)) = delta_positive /\
   ((prop_int s < 0)%Z -> ltb (card_value (proposed_card (b64 s))) (of_int 0) = true)) /\
  (card_delta (cash_card (b64 s)) = delta_positive /\
   ((cash_int s < 0)%Z <-> ltb (card_value (cash_card (b64 s))) (of_int 0) = true)).
Proof.
  intros V S. destruct (roi_signs s S) as ((Ln & _) & Hp & (Cn & _)).
  split; [|split; [|split]].
  - unfold legacy_card. cbn [card_delta].
    pose proof (leg_roi_factored q) as F.
    assert (T : 0 < c_tv q) by (unfold valid in V; tauto).
    pose proof (Qmult_pos_sign (c_tv q) (1 + 9 * hit_rate q - 9 * flop_rate q) T) as M.
    change (ltb (leg_roi q) (of_int 0)) with (negb (Qle_bool 0 (leg_roi q))).
    destruct (Qle_bool 0 (leg_roi q)) eqn:B; cbn [negb].
    + apply Qle_bool_iff in B. split; [discriminate|]. intros L.
      assert (X : c_tv q * (1 + 9 * hit_rate q - 9 * flop_rate q) < 0) by (apply M; lra).
      lra.
    + split; [intros _|reflexivity].
      assert (X : c_tv q * (1 + 9 * hit_rate q - 9 * flop_rate q) < 0).
      { rewrite <- F. apply Qnot_le_lt. intros L. apply Qle_bool_iff in L. congruence. }
      apply M in X. lra.
  - unfold legacy_card. cbn [card_delta]. fold zero64.
    unfold leg_int in Ln.
    destruct (ltb (leg_roi (b64 s)) zero64).
    + split; [intros _|reflexivity]. assert (L : (100 + 9 * hit_pct s - 9 * flop_pct s < 0)%Z) by now apply Ln.
      apply Z.lt_sub_0. exact L.
    + split; [discriminate|]. intros L.
      assert (X : false = true) by (apply Ln, Z.lt_sub_0; exact L).
      discriminate X.
  - split; [reflexivity|]. intros L. cbn [proposed_card card_value].
    apply Hp; [intros E; rewrite E in L; discriminate L | exact L].
  - split; [reflexivity|]. cbn [cash_card card_value]. symmetry. exact Cn.
Qed.

Lemma card_captions_witness :
  card_delta (legacy_card (b64 ref_sliders)) = delta_negative.
Proof.
  assert (V : valid (exact ref_sliders)) by valid_ok.
  assert (S : on_sliders ref_sliders) by sliders_ok.
  apply (proj1 (proj2 (card_captions (exact ref_sliders) ref_sliders V S))).
  vm_compute. reflexivity.
Defined.

(** ** The cash freed *)

Lemma cash_freed_closed_exact (q : Inputs Q) :
  cash_freed q
  == 10 * (c_tv q * ((3 # 20) + (13 # 20) * flop_rate q - (7 # 20) * hit_rate q)
           - c_pilot q * (2 - flop_rate q)).
Proof. destruct q as [tv cp f h]. exact_norm. field. Qed.

(** The cash freed is ten times
    [tv_cost * (0.15 + 0.65 f - 0.35 h) - pilot_cost * (2 - f)], so the
    proposed strategy wins exactly when the pilot cost weighted by [2 - f]
    is below the production cost weighted by [0.15 + 0.65 f - 0.35 h]; in
    binary64, at every slider setting, the sign of the cash freed is the
    sign of that figure in the units of the sliders. *)
Theorem cash_freed_break_even (q : Inputs Q) (s : Sliders) :
  on_sliders s ->
  (cash_freed q
   == 10 * (c_tv q * ((3 # 20) + (13 # 20) * flop_rate q - (7 # 20) * hit_rate q)
            - c_pilot q * (2 - flop_rate q))) /\
  (0 < cash_freed q
   <-> c_pilot q * (2 - flop_rate q)
       < c_tv q * ((3 # 20) + (13 # 20) * flop_rate q - (7 # 20) * hit_rate q)) /\
  (ltb (cash_freed (b64 s)) (of_int 0) = true <-> (cash_int s < 0)%Z) /\
  (ltb (of_int 0) (cash_freed (b64 s)) = true <-> (0 < cash_int s)%Z).
Proof.
  intros S. pose proof (cash_freed_closed_exact q) as F.
  split; [exact F|]. split; [split; intros L; lra|].
  exact (proj2 (proj2 (roi_signs s S))).
Qed.

Lemma cash_freed_break_even_witness :
  ltb (of_int 0) (cash_freed (b64 ref_sliders)) = true.
Proof.
  assert (S : on_sliders ref_sliders) by sliders_ok.
  apply (proj2 (proj2 (proj2 (cash_freed_break_even (exact ref_sliders) ref_sliders S)))).
  vm_compute. reflexivity.
Defined.

Lemma cash_monotone_sweep : forall_sliders cash_monotone_check = true.
Proof. vm_compute. reflexivity. Qed.

(** Of two valid inputs that differ only in the flop rate, the one with
    the larger flop rate frees strictly more cash: in the exact reading for
    every such pair, in binary64 for every such pair of slider settings. *)
Theorem cash_freed_increases_in_flop_rate (q1 q2 : Inputs Q) (s1 s2 : Sliders) :
  valid q1 -> valid q2 ->
  c_tv q1 == c_tv q2 -> c_pilot q1 == c_pilot q2 -> hit_rate q1 == hit_rate q2 ->
  flop_rate q1 < flop_rate q2 ->
  on_sliders s1 -> on_sliders s2 ->
  tv_slider s1 = tv_slider s2 -> pilot_tenths s1 = pilot_tenths s2 ->
  hit_pct s1 = hit_pct s2 -> (flop_pct s1 < flop_pct s2)%Z ->
  cash_freed q1 < cash_freed q2 /\
  ltb (cash_freed (b64 s1)) (cash_freed (b64 s2)) = true.
Proof.
  intros V1 V2 Etv Ecp Eh Lf S1 S2 Ztv Zp Zh Zf. split.
  - pose proof (cash_freed_closed_exact q1) as R1.
    pose proof (cash_freed_closed_exact q2) as R2.
    rewrite Etv, Ecp, Eh in R1.
    assert (P : 0 < (flop_rate q2 - flop_rate q1) * ((13 # 20) * c_tv q2 + c_pilot q2)).
    { unfold valid in V2. apply Qmult_lt_0_compat; lra. }
    assert (D : (flop_rate q2 - flop_rate q1) * ((13 # 20) * c_tv q2 + c_pilot q2)
                == (13 # 20) * (c_tv q2 * flop_rate q2) - (13 # 20) * (c_tv q2 * flop_rate q1)
                   + c_pilot q2 * flop_rate q2 - c_pilot q2 * flop_rate q1) by ring.
    lra.
  - pose proof (forall_sliders_spec _ cash_monotone_sweep s1 S1) as C.
    unfold cash_monotone_check in C. apply andb_true_iff in C as [C _].
    rewrite forallb_forall in C.
    destruct S2 as (_ & _ & F2 & _). specialize (C _ F2).
    apply Z.ltb_lt in Zf. rewrite Zf in C.
    replace (with_flop s1 (flop_pct s2)) with s2 in C; [exact C|].
    destruct s1, s2; unfold with_flop; simpl in *; congruence.
Qed.

Lemma cash_freed_increases_in_flop_rate_witness :
  ltb (cash_freed (b64 ref_sliders)) (cash_freed (b64 (with_flop ref_sliders 65))) = true.
Proof.
  assert (V1 : valid (exact ref_sliders)) by valid_ok.
  assert (V2 : valid (exact (with_flop ref_sliders 65))) by valid_ok.
  assert (S1 : on_sliders ref_sliders) by sliders_ok.
  assert (S2 : on_sliders (with_flop ref_sliders 65)) by sliders_ok.
  refine (proj2 (cash_freed_increases_in_flop_rate
    (exact ref_sliders) (exact (with_flop ref_sliders 65))
    ref_sliders (with_flop ref_sliders 65)
    V1 V2 _ _ _ _ S1 S2 _ _ _ _));
    try reflexivity; vm_compute; reflexivity.
Defined.

(** Of two valid inputs that differ only in the pilot cost, the one with
    the larger pilot cost frees strictly less cash: in the exact reading for
    every such pair, in binary64 for every such pair of slider settings. *)
Theorem cash_freed_decreases_in_pilot_cost (q1 q2 : Inputs Q) (s1 s2 : Sliders) :
  valid q1 -> valid q2 ->
  c_tv q1 == c_tv q2 -> flop_rate q1 == flop_rate q2 -> hit_rate q1 == hit_rate q2 ->
  c_pilot q1 < c_pilot q2 ->
  on_sliders s1 -> on_sliders s2 ->
  tv_slider s1 = tv_slider s2 -> flop_pct s1 = flop_pct s2 ->
  hit_pct s1 = hit_pct s2 -> (pilot_tenths s1 < pilot_tenths s2)%Z ->
  cash_freed q2 < cash_freed q1 /\
  ltb (cash_freed (b64 s2)) (cash_freed (b64 s1)) = true.
Proof.
  intros V1 V2 Etv Ef Eh Lp S1 S2 Ztv Zf Zh Zp. split.
  - pose proof (cash_freed_closed_exact q1) as R1.
    pose proof (cash_freed_closed_exact q2) as R2.
    rewrite Etv, Ef, Eh in R1.
    assert (P : 0 < (c_pilot q2 - c_pilot q1) * (2 - flop_rate q2)).
    { unfold valid in V2. apply Qmult_lt_0_compat; lra. }
    assert (D : (c_pilot q2 - c_pilot q1) * (2 - flop_rate q2)
                == c_pilot q2 * (2 - flop_rate q2) - c_pilot q1 * (2 - flop_rate q2)) by ring.
    lra.
  - pose proof (forall_sliders_spec _ cash_monotone_sweep s1 S1) as C.
    unfold cash_monotone_check in C. apply andb_true_iff in C as [_ C].
    rewrite forallb_forall in C.
    destruct S2 as (_ & P2 & _ & _). specialize (C _ P2).
    apply Z.ltb_lt in Zp. rewrite Zp in C.
    replace (with_pilot s1 (pilot_tenths s2)) with s2 in C; [exact C|].
    destruct s1, s2; unfold with_pilot; simpl in *; congruence.
Qed.

Lemma cash_freed_decreases_in_pilot_cost_witness :
  ltb (cash_freed (b64 (with_pilot ref_sliders 25))) (cash_freed (b64 ref_sliders)) = true.
Proof.
  assert (V1 : valid (exact ref_sliders)) by valid_ok.
  assert (V2 : valid (exact (with_pilot ref_sliders 25))) by valid_ok.
  assert (S1 : on_sliders ref_sliders) by sliders_ok.
  assert (S2 : on_sliders (with_pilot ref_sliders 25)) by sliders_ok.
  refine (proj2 (cash_freed_decreases_in_pilot_cost
    (exact ref_sliders) (exact (with_pilot ref_sliders 25))
    ref_sliders (with_pilot ref_sliders 25)
    V1 V2 _ _ _ _ S1 S2 _ _ _ _));
    try reflexivity; vm_compute; reflexivity.
Defined.

(** ** The bridge *)

Lemma bridge_closes_sweep : forall_sliders bridge_closes_check = true.
Proof. vm_compute. reflexivity. Qed.

Lemma bridge_gap_factored (q : Inputs Q) :
  bridge_total q - prop_roi q
  == 10 * ((1 - 2 * flop_rate q) * c_pilot q
           + c_tv q * ((7 # 10) * hit_rate q + (3 # 10) * flop_rate q - (3 # 10))).
Proof. destruct q as [tv cp f h]. exact_norm. field. Qed.

(** The total bar of the chart stands at the proposed ROI exactly when
    [(1 - 2 f) * pilot_cost + tv_cost * (0.7 h + 0.3 f - 0.3)] is zero: in
    the exact reading for every input, and in binary64, within [1e-9], at
    exactly the slider settings where that figure is zero in the units of
    the sliders. *)
Theorem bridge_closes_iff (q : Inputs Q) (s : Sliders) :
  on_sliders s ->
  (bridge_total q == prop_roi q
   <-> (1 - 2 * flop_rate q) * c_pilot q
       + c_tv q * ((7 # 10) * hit_rate q + (3 # 10) * flop_rate q - (3 # 10)) == 0) /\
  (close (bridge_total (b64 s)) (prop_roi (b64 s)) = true <-> gap_int s = 0%Z).
Proof.
  intros S. split.
  - pose proof (bridge_gap_factored q) as G. split; intros E; lra.
  - pose proof (forall_sliders_spec _ bridge_closes_sweep s S) as C.
    unfold bridge_closes_check in C. apply Bool.eqb_prop in C.
    rewrite C. apply Z.eqb_eq.
Qed.

Lemma bridge_closes_iff_witness :
  close (bridge_total (b64 (mkSliders 20 10 55 20)))
        (prop_roi (b64 (mkSliders 20 10 55 20))) = true.
Proof.
  assert (S : on_sliders (mkSliders 20 10 55 20)) by sliders_ok.
  apply (proj2 (bridge_closes_iff (exact ref_sliders) (mkSliders 20 10 55 20) S)).
  vm_compute. reflexivity.
Defined.

Lemma step_sign_sweep : forall_sliders step_sign_check = true.
Proof. vm_compute. reflexivity. Qed.

(** The first three steps of the bridge point the way the chart labels
    them: the saving on flops is not negative, the pilot cost is strictly
    negative, the lost salvage revenue is not positive, on every valid input
    in the exact reading; in binary64 the three are strictly up, down and
    down at every slider setting. *)
Theorem bridge_step_directions (q : Inputs Q) (s : Sliders) :
  valid q -> on_sliders s ->
  (0 <= savings_on_flops q /\ cost_of_piloting q < 0 /\ lost_salvage_rev q <= 0) /\
  (ltb (of_int 0) (savings_on_flops (b64 s)) = true /\
   ltb (cost_of_piloting (b64 s)) (of_int 0) = true /\
   ltb (lost_salvage_rev (b64 s)) (of_int 0) = true).
Proof.
  intros V S. split.
  - unfold valid in V. destruct V as (F0 & F1 & H0 & H1 & FH & T & P).
    assert (FT : 0 <= flop_rate q * c_tv q) by (apply Qmult_le_0_compat; lra).
    assert (E1 : savings_on_flops q == 10 * (flop_rate q * c_tv q))
      by (destruct q as [tv cp f h]; exact_norm; ring).
    assert (E2 : cost_of_piloting q == - (10 * c_pilot q))
      by (destruct q as [tv cp f h]; exact_norm; ring).
    assert (E3 : lost_salvage_rev q == - (2 * (flop_rate q * c_tv q)))
      by (destruct q as [tv cp f h]; exact_norm; field).
    repeat split; lra.
  - pose proof (forall_sliders_spec _ step_sign_sweep s S) as C.
    unfold step_sign_check in C.
    apply andb_true_iff in C as [C C3]. apply andb_true_iff in C as [C1 C2].
    repeat split; assumption.
Qed.

Lemma bridge_step_directions_witness :
  ltb (cost_of_piloting (b64 ref_sliders)) (of_int 0) = true.
Proof.
  assert (V : valid (exact ref_sliders)) by valid_ok.
  assert (S : on_sliders ref_sliders) by sliders_ok.
  exact (proj1 (proj2 (proj2 (bridge_step_directions (exact ref_sliders) ref_sliders V S)))).
Defined.

(** ** The bar chart *)

Lemma bars_sweep : forall_sliders bars_check = true.
Proof. vm_compute. reflexivity. Qed.

(** No segment of the stacked bars is negative, and the wasted capital of
    the two models is in the ratio of the pilot cost to the production cost:
    on every valid input in the exact reading.  In binary64, at every slider
    setting that runs, every segment is strictly positive and the proposed
    model wastes strictly less than the legacy one. *)
Theorem capital_bars (q : Inputs Q) (s : Sliders) (r : Result B64.t) :
  valid q -> on_sliders s -> evaluate (b64 s) = Some r ->
  Forall (fun row => 0 <= bar_wasted row /\ 0 <= bar_productive row) (df_bar q) /\
  prop_waste q * c_tv q == leg_waste q * c_pilot q /\
  forallb (fun row => ltb (of_int 0) (bar_wasted row) && ltb (of_int 0) (bar_productive row))
          (df_bar (b64 s)) = true /\
  ltb (r_prop_waste r) (r_leg_waste r) = true.
Proof.
  intros V S E. split; [|split; [|split]].
  - unfold valid in V. destruct V as (F0 & F1 & H0 & H1 & FH & T & P).
    set (a := 1 - flop_rate q - hit_rate q).
    assert (A0 : 0 <= a) by (unfold a; lra).
    assert (FT : 0 <= flop_rate q * c_tv q) by (apply Qmult_le_0_compat; lra).
    assert (FP : 0 <= flop_rate q * c_pilot q) by (apply Qmult_le_0_compat; lra).
    assert (GT : 0 <= (1 - flop_rate q) * c_tv q) by (apply Qmult_le_0_compat; lra).
    assert (GP : 0 <= (1 - flop_rate q) * c_pilot q) by (apply Qmult_le_0_compat; lra).
    assert (AT : 0 <= a * c_tv q) by (apply Qmult_le_0_compat; lra).
    assert (AP : 0 <= a * c_pilot q) by (apply Qmult_le_0_compat; lra).
    assert (HT : 0 <= hit_rate q * c_tv q) by (apply Qmult_le_0_compat; lra).
    assert (HP : 0 <= hit_rate q * c_pilot q) by (apply Qmult_le_0_compat; lra).
    assert (E1 : leg_waste q == 10 * (flop_rate q * c_tv q))
      by (destruct q as [tv cp f h]; exact_norm; ring).
    assert (E2 : leg_productive q == 10 * ((1 - flop_rate q) * c_tv q))
      by (destruct q as [tv cp f h]; exact_norm; ring).
    assert (E3 : prop_waste q == 10 * (flop_rate q * c_pilot q))
      by (destruct q as [tv cp f h]; exact_norm; ring).
    assert (E4 : prop_productive q
                 == 10 * ((1 - flop_rate q) * c_pilot q)
                    + 10 * (a * c_pilot q) + (17 # 2) * (a * c_tv q)
                    + 10 * (hit_rate q * c_pilot q) + 12 * (hit_rate q * c_tv q))
      by (unfold a; destruct q as [tv cp f h]; exact_norm; field).
    unfold df_bar. repeat constructor; cbn [bar_wasted bar_productive]; lra.
  - destruct q as [tv cp f h]. exact_norm. ring.
  - pose proof (forall_sliders_spec _ bars_sweep s S) as C.
    unfold bars_check in C. cbv zeta in C.
    repeat (apply andb_true_iff in C; destruct C as [C ?]).
    assert (R : halts s = false) by (unfold halts; now rewrite E).
    rewrite R in *. cbn [orb] in *.
    assert (W : ltb (of_int 0) (leg_waste (b64 s)) = true).
    { pose proof (forall_sliders_spec _ step_sign_sweep s S) as D.
      unfold step_sign_check in D.
      apply andb_true_iff in D as [D _]. apply andb_true_iff in D as [D _]. exact D. }
    unfold df_bar. cbn [forallb bar_wasted bar_productive].
    fold zero64 in W |- *.
    repeat match goal with L : _ = true |- _ => rewrite L end. reflexivity.
  - rewrite (evaluate_some _ _ E). cbn [figures r_prop_waste r_leg_waste].
    pose proof (forall_sliders_spec _ bars_sweep s S) as C.
    unfold bars_check in C. cbv zeta in C.
    repeat (apply andb_true_iff in C; destruct C as [C ?]). assumption.
Qed.

Lemma capital_bars_witness :
  ltb (prop_waste (b64 ref_sliders)) (leg_waste (b64 ref_sliders)) = true.
Proof.
  assert (V : valid (exact ref_sliders)) by valid_ok.
  assert (S : on_sliders ref_sliders) by sliders_ok.
  assert (E : evaluate (b64 ref_sliders) = Some (figures (b64 ref_sliders))).
  { vm_compute. reflexivity. }
  exact (proj2 (proj2 (proj2 (capital_bars (exact ref_sliders) ref_sliders _ V S E)))).
Defined.

(** ** The cohort *)

Lemma cohort_sweep : forall_sliders cohort_check = true.
Proof. vm_compute. reflexivity. Qed.

(** The flops killed, the average shows and the hits make up the
    portfolio: [N * flop_rate + N * avg_rate + N * hit_rate] is [N], for
    every input in the exact reading and, with Python's [==], at every
    slider setting in binary64. *)
Theorem cohort_adds_up (q : Inputs Q) (s : Sliders) :
  on_sliders s ->
  flops_killed q + N * avg_rate q + N * hit_rate q == N /\
  eqb (flops_killed (b64 s) + N * avg_rate (b64 s) + N * hit_rate (b64 s))%num N = true.
Proof.
  intros S. split.
  - destruct q as [tv cp f h]. exact_norm. field.
  - exact (forall_sliders_spec _ cohort_sweep s S).
Qed.

Lemma cohort_adds_up_witness :
  eqb (flops_killed (b64 ref_sliders) + N * avg_rate (b64 ref_sliders)
       + N * hit_rate (b64 ref_sliders))%num N = true.
Proof.
  assert (S : on_sliders ref_sliders) by sliders_ok.
  exact (proj2 (cohort_adds_up (exact ref_sliders) ref_sliders S)).
Defined.

(** ** Scaling the costs *)

Lemma doubling_sweep : forall_sliders doubling_check = true.
Proof. vm_compute. reflexivity. Qed.

(** The model is linear in the two costs: at costs [k] times as large the
    run halts on the same rates and every money figure is [k] times as
    large, in the exact reading; in binary64 the three ROI figures at twice
    the costs of a slider setting are, with Python's [==], twice the
    figures. *)
Theorem costs_scale (k : Q) (q : Inputs Q) (i : Inputs B64.t) (k64 : B64.t) (s : Sliders) :
  on_sliders s ->
  (evaluate (scale_costs k q) = None <-> evaluate q = None) /\
  (evaluate (scale_costs k64 i) = None <-> evaluate i = None) /\
  (leg_cost (scale_costs k q) == k * leg_cost q /\
   leg_rev (scale_costs k q) == k * leg_rev q /\
   leg_roi (scale_costs k q) == k * leg_roi q /\
   prop_total_cost (scale_costs k q) == k * prop_total_cost q /\
   prop_rev (scale_costs k q) == k * prop_rev q /\
   prop_roi (scale_costs k q) == k * prop_roi q /\
   cash_freed (scale_costs k q) == k * cash_freed q) /\
  (eqb (leg_roi (scale_costs (of_int 2) (b64 s))) (of_int 2 * leg_roi (b64 s))%num = true /\
   eqb (prop_roi (scale_costs (of_int 2) (b64 s))) (of_int 2 * prop_roi (b64 s))%num = true /\
   eqb (cash_freed (scale_costs (of_int 2) (b64 s))) (of_int 2 * cash_freed (b64 s))%num = true).
Proof.
  intros S. split; [|split; [|split]].
  - rewrite !evaluate_none. reflexivity.
  - rewrite !evaluate_none. reflexivity.
  - destruct q as [tv cp f h]. unfold scale_costs. exact_norm. repeat split; field.
  - pose proof (forall_sliders_spec _ doubling_sweep s S) as C.
    unfold doubling_check in C. cbv zeta in C.
    repeat (apply andb_true_iff in C; destruct C as [C ?]).
    repeat split; assumption.
Qed.

Lemma costs_scale_witness :
  eqb (cash_freed (scale_costs (of_int 2) (b64 ref_sliders)))
      (of_int 2 * cash_freed (b64 ref_sliders))%num = true.
Proof.
  assert (S : on_sliders ref_sliders) by sliders_ok.
  exact (proj2 (proj2 (proj2 (proj2 (proj2
    (costs_scale 1 (exact ref_sliders) (b64 ref_sliders) (of_int 1) ref_sliders S)))))).
Defined.
